(** * AdGuard Browser Extension: custom-filter service and assistant launcher

    A shallow embedding of
    - [Extension/src/background/services/custom-filter.ts]
      (class [CustomFilterService]) and
    - [Extension/api/sample-extension/entries/popup/index.js]
      (the click handler of the popup).

    Both files are glue over collaborators that live elsewhere (the filter
    API, the engine, the browser).  A handler is therefore embedded as a
    finite tree of collaborator calls: every node names the call that the
    source makes at that point and continues with the value the collaborator
    hands back.  Running a tree against an arbitrary environment yields the
    chronological list of calls made and the way the handler's promise
    settles. *)

From Stdlib Require Import String ZArith List Bool Lia DecimalString.
From ExtLib Require Import Structures.Monad.
Import ListNotations.
Import MonadNotation.
Local Open Scope monad_scope.
Local Open Scope string_scope.
Local Open Scope list_scope.
Local Open Scope Z_scope.

Set Implicit Arguments.

(** ** Asynchronous computations over a signature of collaborator calls *)

Module Async.

(** A value thrown or used as a rejection reason.  [TypeError] is what the
    language itself raises when a property of [undefined] is read; anything a
    collaborator throws is an [ExternalError]. *)
Inductive JsError : Type :=
| TypeError
| ExternalError (reason : string).

(** The state of a promise as seen by the code that awaits it.  A promise
    that is never settled leaves the awaiting function suspended for ever. *)
Inductive settled (A : Type) : Type :=
| Fulfilled (a : A)
| Rejected (e : JsError)
| Pending.

Arguments Fulfilled {A} a.
Arguments Rejected {A} e.
Arguments Pending {A}.

Section Signature.

(** [call] lists the collaborator calls, [resp c] is the type of what the
    collaborator hands back for [c]. *)
Variable call : Type.
Variable resp : call -> Type.

Inductive prog (R : Type) : Type :=
| Ret (r : R)
| Vis (c : call) (k : resp c -> prog R).

Arguments Ret {R} r.
Arguments Vis {R} c k.

Fixpoint seq {A B : Type} (p : prog A) (f : A -> prog B) : prog B :=
  match p with
  | Ret a => f a
  | Vis c k => Vis c (fun x => seq (k x) f)
  end.

(** The body of an [async] function: a tree whose leaves say how the
    function's promise settles. *)
Definition async (A : Type) : Type := prog (settled A).

Definition async_ret {A : Type} (a : A) : async A := Ret (Fulfilled a).

(** Sequencing stops at the first rejection (it propagates) and at the
    first promise that never settles. *)
Definition async_bind {A B : Type} (m : async A) (f : A -> async B) : async B :=
  seq m (fun o =>
    match o with
    | Fulfilled a => f a
    | Rejected e => Ret (Rejected e)
    | Pending => Ret Pending
    end).

#[global] Instance Monad_async : Monad async :=
  {| ret := @async_ret; bind := @async_bind |}.

(** [throw e] *)
Definition throw {A : Type} (e : JsError) : async A := Ret (Rejected e).

(** [try { body } catch (e) { handler e }] *)
Definition try_catch {A : Type} (body : async A) (handler : JsError -> async A) : async A :=
  seq body (fun o =>
    match o with
    | Rejected e => handler e
    | _ => Ret o
    end).

(** A synchronous call of a collaborator that returns a plain value. *)
Definition invoke (c : call) : async (resp c) :=
  Vis c (fun x => Ret (Fulfilled x)).

(** [await c(...)] for a collaborator that returns a promise ([resp c] is
    [settled A]): the function resumes with the promise's settlement. *)
Definition await (c : call) : prog (resp c) := Vis c (fun x => Ret x).

(** The environment decides what every call hands back; its answer may
    depend on everything that was called before. *)
Definition oracle : Type := list call -> forall c : call, resp c.

(** [run_from env hist p] performs [p] after the calls [hist] and returns
    all the calls made, oldest first, with the result of [p]. *)
Fixpoint run_from {R : Type} (env : oracle) (hist : list call) (p : prog R) : list call * R :=
  match p with
  | Ret r => (hist, r)
  | Vis c k => run_from env (hist ++ [c]) (k (env hist c))
  end.

Definition run {R : Type} (env : oracle) (p : prog R) : list call * R :=
  run_from env [] p.

Definition trace {R : Type} (env : oracle) (p : prog R) : list call := fst (run env p).
Definition outcome {R : Type} (env : oracle) (p : prog R) : R := snd (run env p).

(** How many of the calls made satisfy [which]. *)
Definition calls (which : call -> bool) (t : list call) : nat :=
  length (filter which t).

End Signature.

Arguments Ret {call resp R} r.
Arguments Vis {call resp R} c k.
Arguments throw {call resp A} e.
Arguments invoke {call resp} c.
Arguments await {call resp} c.
Arguments calls {call} which t.

End Async.

Import Async.

(** ** [Extension/src/background/services/custom-filter.ts] *)

Module CustomFilterService.

(** [message.data] of a [LoadCustomFilterInfoMessage]. *)
Record LoadCustomFilterInfoMessage : Type :=
  { info_url : string; info_title : string }.

(** [message.data.filter] of a [SubscribeToCustomFilterMessage]. *)
Record CustomFilterSubscriptionData : Type :=
  { customUrl : string; name : string; trusted : bool }.

(** [message.data] of a [SubscribeToCustomFilterMessage]. *)
Record SubscribeToCustomFilterMessage : Type :=
  { filter : CustomFilterSubscriptionData }.

(** [message.data] of a [RemoveAntiBannerFilterMessage]. *)
Record RemoveAntiBannerFilterMessage : Type :=
  { filterId : Z }.

(** The object literal handed to [CustomFilterApi.createFilter]. *)
Record CreateFilterOptions : Type :=
  { create_customUrl : string;
    create_title : string;
    create_trusted : bool;
    create_enabled : bool }.

(** The fields of [WebNavigation.OnCommittedDetailsType] in play: the
    handler destructures [tabId] and [frameId]; [url] is the URL the event
    itself carries. *)
Record OnCommittedDetailsType : Type :=
  { tabId : Z; frameId : Z; url : string }.

(** A frame record of the tab/frame registry; the handler reads [frame.url]. *)
Record Frame : Type :=
  { frame_url : string }.

(** The object literal handed to [browser.tabs.executeScript]. *)
Record ExecuteScriptDetails : Type :=
  { file : string; runAt : string; inject_frameId : Z }.

(** The calls with an effect outside the service. *)
Inductive call : Type :=
| getFilterInfo (url title : string)          (* CustomFilterApi.getFilterInfo *)
| createFilter (options : CreateFilterOptions) (* CustomFilterApi.createFilter *)
| removeFilter (filterId : Z)                  (* CustomFilterApi.removeFilter *)
| debounceUpdate                               (* Engine.debounceUpdate *)
| executeScript (tabId : Z) (details : ExecuteScriptDetails).
                                               (* browser.tabs.executeScript *)

Definition is_createFilter (c : call) : bool :=
  match c with createFilter _ => true | _ => false end.

Definition is_executeScript (c : call) : bool :=
  match c with executeScript _ _ => true | _ => false end.

Section Collaborators.

(** Result types owned by the external filter API and by the browser;
    the service passes them through without looking inside. *)
Variables CustomFilterMetadata GetCustomFilterInfoResult InjectionResult : Type.

(** Constants imported from [common/constants], [constants] and
    [@adguard/tswebextension]. *)
Variables BACKGROUND_TAB_ID MAIN_FRAME_ID : Z.
Variable SUBSCRIBE_OUTPUT : string.

(** [tabsApi.getTabFrame]: the tab/frame registry as it stands when the
    event is handled ([None] for a frame that is not tracked). *)
Variable getTabFrame : Z -> Z -> option Frame.

(** The URL predicate imported from [@adguard/tswebextension]. *)
Variable isHttpOrWsRequest : string -> bool.

(** What each call hands back: the three filter API methods and
    [executeScript] return promises, which may be fulfilled, be rejected
    (a call that throws outright is a rejection to the code awaiting it) or
    stay pending.  [Engine.debounceUpdate] is taken at its declared type
    [() => void]: it returns, with nothing. *)
Definition resp (c : call) : Type :=
  match c with
  | getFilterInfo _ _ => settled GetCustomFilterInfoResult
  | createFilter _ => settled CustomFilterMetadata
  | removeFilter _ => settled unit
  | debounceUpdate => unit
  | executeScript _ _ => settled InjectionResult
  end.

Definition onCustomFilterInfoLoad (message : LoadCustomFilterInfoMessage)
  : async resp GetCustomFilterInfoResult :=
  let url := info_url message in
  let title := info_title message in
  await (getFilterInfo url title).

Definition onCustomFilterSubscription (message : SubscribeToCustomFilterMessage)
  : async resp CustomFilterMetadata :=
  let filter := filter message in
  let customUrl := customUrl filter in
  let name := name filter in
  let trusted := trusted filter in
  filterMetadata <- await (createFilter
                             {| create_customUrl := customUrl;
                                create_title := name;
                                create_trusted := trusted;
                                create_enabled := true |}) ;;
  invoke debounceUpdate ;;
  ret filterMetadata.

Definition onCustomFilterRemove (message : RemoveAntiBannerFilterMessage)
  : async resp unit :=
  let filterId := filterId message in
  await (removeFilter filterId) ;;
  ret tt.

Definition injectSubscriptionScript (details : OnCommittedDetailsType)
  : async resp unit :=
  let tabId := tabId details in
  let frameId := frameId details in
  if tabId =? BACKGROUND_TAB_ID then ret tt
  else
    match getTabFrame tabId frameId with
    | None => ret tt
    | Some frame =>
        let isDocumentFrame := frameId =? MAIN_FRAME_ID in
        if negb isDocumentFrame || negb (isHttpOrWsRequest (frame_url frame))
        then ret tt
        else
          try_catch
            (await (executeScript tabId
                      {| file := ("/" ++ SUBSCRIBE_OUTPUT ++ ".js")%string;
                         runAt := "document_start";
                         inject_frameId := frameId |}) ;;
             ret tt)
            (fun e => (* do nothing *) ret tt)
    end.

(** *** Vocabulary for the statements below *)

(** The options with which the subscription handler creates a filter. *)
Definition creation_of (message : SubscribeToCustomFilterMessage) : CreateFilterOptions :=
  {| create_customUrl := customUrl (filter message);
     create_title := name (filter message);
     create_trusted := trusted (filter message);
     create_enabled := true |}.

(** The injection that the navigation handler asks for. *)
Definition injection_of (details : OnCommittedDetailsType) : call :=
  executeScript (tabId details)
    {| file := ("/" ++ SUBSCRIBE_OUTPUT ++ ".js")%string;
       runAt := "document_start";
       inject_frameId := frameId details |}.

(** Whether the guards of the navigation handler let the event through. *)
Definition passes_guards (details : OnCommittedDetailsType) : bool :=
  negb (tabId details =? BACKGROUND_TAB_ID) &&
  match getTabFrame (tabId details) (frameId details) with
  | Some frame => (frameId details =? MAIN_FRAME_ID) && isHttpOrWsRequest (frame_url frame)
  | None => false
  end.

End Collaborators.

End CustomFilterService.

(** ** [Extension/api/sample-extension/entries/popup/index.js] *)

Module Popup.

(** The fields of a [chrome.tabs.Tab] that the script reads; the browser may
    leave either of them [undefined]. *)
Record Tab : Type :=
  { id : option Z; url : option string }.

(** The object literal handed to [chrome.tabs.query]. *)
Record QueryInfo : Type :=
  { active : bool; currentWindow : bool }.

Inductive call : Type :=
| tabs_query (queryInfo : QueryInfo)   (* chrome.tabs.query *)
| log (message : string)               (* console.log *)
| openAssistant (tabId : option Z)     (* lib/assistant-manager *)
| window_close.                        (* window.close *)

Definition is_openAssistant (c : call) : bool :=
  match c with openAssistant _ => true | _ => false end.

Definition is_window_close (c : call) : bool :=
  match c with window_close => true | _ => false end.

(** [chrome.tabs.query] hands the matching tabs to its callback,
    [openAssistant] returns a promise, the other two return nothing. *)
Definition resp (c : call) : Type :=
  match c with
  | tabs_query _ => list Tab
  | log _ => unit
  | openAssistant _ => settled unit
  | window_close => unit
  end.

(** How a template literal renders a value that may be [undefined]. *)
Definition show {A : Type} (render : A -> string) (v : option A) : string :=
  match v with
  | Some a => render a
  | None => "undefined"
  end.

Definition show_number (n : Z) : string := NilZero.string_of_int (Z.to_int n).

(** The [async (tabs) => { ... }] callback. *)
Definition onTabs (tabs : list Tab) : async resp unit :=
  match nth_error tabs 0 with
  | None =>
      (* [currentTab] is [undefined]; destructuring it throws *)
      throw TypeError
  | Some currentTab =>
      let url := url currentTab in
      invoke (log ("Opening Assistant UI for tab id=" ++ show show_number (id currentTab)
                   ++ " url=" ++ show (fun u => u) url)%string) ;;
      await (openAssistant (id currentTab)) ;;
      invoke window_close
  end.

(** The click listener of the [openAssistant] button.  The listener itself
    returns as soon as it has called [chrome.tabs.query]; the tree goes on
    with the callback, and its result is the settlement of the callback's
    promise, which no code awaits or catches. *)
Definition onClick : async resp unit :=
  Vis (tabs_query {| active := true; currentWindow := true |}) onTabs.

(** *** Vocabulary for the statements below *)

(** The query for the active tab of the current window. *)
Definition active_tab_query : call :=
  tabs_query {| active := true; currentWindow := true |}.

(** The line logged before the assistant is opened on [tab]. *)
Definition announcement (tab : Tab) : call :=
  log ("Opening Assistant UI for tab id=" ++ show show_number (id tab)
       ++ " url=" ++ show (fun u => u) (url tab))%string.

End Popup.

(** ** Concrete collaborators, used to exercise the handlers *)

Module Sample.

Import CustomFilterService.

Definition BACKGROUND_TAB_ID : Z := -1.
Definition MAIN_FRAME_ID : Z := 0.
Definition SUBSCRIBE_OUTPUT : string := "pages/subscribe".

(** A URL predicate that accepts the prefixes [http] and [ws]. *)
Definition isHttpOrWsRequest (url : string) : bool :=
  String.prefix "http" url || String.prefix "ws" url.

(** A registry that tracks the main frame of tab 1 at a web page, the main
    frame of tab 2 at a blank page and one nested frame of tab 1. *)
Definition getTabFrame (tabId frameId : Z) : option Frame :=
  if (tabId =? 1) && (frameId =? 0) then Some {| frame_url := "https://example.org/" |}
  else if (tabId =? 2) && (frameId =? 0) then Some {| frame_url := "about:blank" |}
  else if (tabId =? 1) && (frameId =? 7) then Some {| frame_url := "https://ads.example.net/" |}
  else None.

(** Filter metadata and filter info are rendered as strings here; an
    injection yields nothing of interest. *)
Definition resp : call -> Type := CustomFilterService.resp string string unit.

(** An environment in which every collaborator succeeds. *)
Definition cooperative : oracle resp :=
  fun _ c =>
    match c with
    | getFilterInfo url title => Fulfilled (title ++ " <" ++ url ++ ">")%string
    | createFilter options => Fulfilled ("custom filter " ++ create_title options)%string
    | removeFilter _ => Fulfilled tt
    | debounceUpdate => tt
    | executeScript _ _ => Fulfilled tt
    end.

(** An environment in which every promise is rejected. *)
Definition failing : oracle resp :=
  fun _ c =>
    match c with
    | getFilterInfo _ _ => Rejected (ExternalError "network")
    | createFilter _ => Rejected (ExternalError "network")
    | removeFilter _ => Rejected (ExternalError "unknown filter")
    | debounceUpdate => tt
    | executeScript _ _ => Rejected (ExternalError "frame gone")
    end.

Definition inject : OnCommittedDetailsType -> async resp unit :=
  injectSubscriptionScript string string unit
    BACKGROUND_TAB_ID MAIN_FRAME_ID SUBSCRIBE_OUTPUT getTabFrame isHttpOrWsRequest.

(** A browser with one active tab, and one that reports none. *)
Definition one_tab : oracle Popup.resp :=
  fun _ c =>
    match c with
    | Popup.tabs_query _ => [ {| Popup.id := Some 42; Popup.url := Some "https://example.org/" |} ]
    | Popup.log _ => tt
    | Popup.openAssistant _ => Fulfilled tt
    | Popup.window_close => tt
    end.

Definition no_tab : oracle Popup.resp :=
  fun _ c =>
    match c with
    | Popup.tabs_query _ => []
    | Popup.log _ => tt
    | Popup.openAssistant _ => Fulfilled tt
    | Popup.window_close => tt
    end.

End Sample.

(** ** [CustomFilterService.init] *)

Module CustomFilterServiceInit.

(** The members of [MessageType] that the service listens to. *)
Inductive MessageType : Type :=
| LoadCustomFilterInfo
| SubscribeToCustomFilter
| RemoveAntiBannerFilter.

(** The static methods of [CustomFilterService], as [init] hands them over
    by reference. *)
Inductive Listener : Type :=
| onCustomFilterInfoLoad
| onCustomFilterSubscription
| onCustomFilterRemove
| injectSubscriptionScript.

Inductive call : Type :=
| messageHandler_addListener (type : MessageType) (listener : Listener)
                                (* messageHandler.addListener *)
| onCommitted_addListener (listener : Listener).
                                (* browser.webNavigation.onCommitted.addListener *)

Definition is_messageHandler_addListener (c : call) : bool :=
  match c with messageHandler_addListener _ _ => true | _ => false end.

Definition is_onCommitted_addListener (c : call) : bool :=
  match c with onCommitted_addListener _ => true | _ => false end.

(** A registration is a synchronous call: it returns ([Fulfilled]), throws
    ([Rejected]) or does not come back ([Pending]). *)
Definition resp (c : call) : Type := settled unit.

(** A statement that consists of one such call; what it throws ends the
    function it stands in. *)
Definition statement (c : call) : async resp unit := Vis c (fun returned => Ret returned).

Definition init : async resp unit :=
  statement (messageHandler_addListener LoadCustomFilterInfo onCustomFilterInfoLoad) ;;
  statement (messageHandler_addListener SubscribeToCustomFilter onCustomFilterSubscription) ;;
  statement (messageHandler_addListener RemoveAntiBannerFilter onCustomFilterRemove) ;;
  statement (onCommitted_addListener injectSubscriptionScript).

(** *** Vocabulary for the statements below *)

(** The message type of a registration with the message handler. *)
Definition registered_type (c : call) : option MessageType :=
  match c with
  | messageHandler_addListener type _ => Some type
  | onCommitted_addListener _ => None
  end.

(** The message types for which a trace holds a registration. *)
Fixpoint registered_types (t : list call) : list MessageType :=
  match t with
  | [] => []
  | c :: rest =>
      match registered_type c with
      | Some type => type :: registered_types rest
      | None => registered_types rest
      end
  end.

End CustomFilterServiceInit.

(** ** The wiring of [Extension/api/sample-extension/entries/popup/index.js] *)

Module PopupPage.

Section Dom.

(** The elements of the popup's document. *)
Variable Element : Type.

Inductive call : Type :=
| document_addEventListener (type : string)        (* document.addEventListener *)
| document_getElementById (elementId : string)     (* document.getElementById *)
| element_addEventListener (target : Element) (type : string).
                                                   (* openAssistantButton.addEventListener *)

Definition is_element_addEventListener (c : call) : bool :=
  match c with element_addEventListener _ _ => true | _ => false end.

(** [getElementById] returns the element or [null]; registering a listener
    returns nothing. *)
Definition resp (c : call) : Type :=
  match c with
  | document_addEventListener _ => unit
  | document_getElementById _ => option Element
  | element_addEventListener _ _ => unit
  end.

Definition getElementById (elementId : string) : async resp (option Element) :=
  invoke (document_getElementById elementId).

Definition addEventListener (target : Element) (type : string) : async resp unit :=
  invoke (element_addEventListener target type).

(** The script itself: it installs the listener below for
    [DOMContentLoaded]. *)
Definition script : async resp unit :=
  invoke (document_addEventListener "DOMContentLoaded").

(** The [DOMContentLoaded] listener; the click listener that it installs is
    [Popup.onClick]. *)
Definition onDOMContentLoaded : async resp unit :=
  openAssistantButton <- getElementById "openAssistant" ;;
  match openAssistantButton with
  | None =>
      (* [null.addEventListener] *)
      throw TypeError
  | Some button => addEventListener button "click"
  end.

End Dom.

End PopupPage.

(** ** Further kinds of calls to count *)

Module CallKinds.

Definition is_debounceUpdate (c : CustomFilterService.call) : bool :=
  match c with CustomFilterService.debounceUpdate => true | _ => false end.

Definition is_tabs_query (c : Popup.call) : bool :=
  match c with Popup.tabs_query _ => true | _ => false end.

End CallKinds.

(** ** More concrete collaborators *)

Module MoreSamples.

(** An environment in which no promise of the service ever settles. *)
Definition stalled : oracle Sample.resp :=
  fun _ c =>
    match c with
    | CustomFilterService.getFilterInfo _ _ => Pending
    | CustomFilterService.createFilter _ => Pending
    | CustomFilterService.removeFilter _ => Pending
    | CustomFilterService.debounceUpdate => tt
    | CustomFilterService.executeScript _ _ => Pending
    end.

(** A browser with one active tab on which the assistant cannot be opened. *)
Definition assistant_fails : oracle Popup.resp :=
  fun _ c =>
    match c with
    | Popup.tabs_query _ => [ {| Popup.id := Some 42; Popup.url := Some "chrome://settings/" |} ]
    | Popup.log _ => tt
    | Popup.openAssistant _ => Rejected (ExternalError "cannot access tab")
    | Popup.window_close => tt
    end.

(** A message handler and a browser that accept every listener. *)
Definition accepting : oracle CustomFilterServiceInit.resp :=
  fun _ _ => Fulfilled tt.


(** A document whose elements are known by their identifier, with and
    without the button. *)
Definition with_button : oracle (@PopupPage.resp string) :=
  fun _ c =>
    match c with
    | PopupPage.document_addEventListener _ _ => tt
    | PopupPage.document_getElementById _ elementId => Some elementId
    | PopupPage.element_addEventListener _ _ => tt
    end.

Definition without_button : oracle (@PopupPage.resp string) :=
  fun _ c =>
    match c with
    | PopupPage.document_addEventListener _ _ => tt
    | PopupPage.document_getElementById _ _ => None
    | PopupPage.element_addEventListener _ _ => tt
    end.

End MoreSamples.

(** ** How running a computation unfolds *)

Module AsyncFacts.

Section Running.

Variable call : Type.
Variable resp : call -> Type.
Variable env : oracle resp.

Lemma run_from_seq (A B : Type) (p : prog resp A) (f : A -> prog resp B) (hist : list call) :
  run_from env hist (seq p f) =
  run_from env (fst (run_from env hist p)) (f (snd (run_from env hist p))).
Proof.
  revert hist.
  induction p as [a | c k IH]; intros hist; simpl.
  - reflexivity.
  - apply IH.
Qed.

Lemma run_from_await (c : call) (hist : list call) :
  run_from env hist (await c) = (hist ++ [c], env hist c).
Proof. reflexivity. Qed.

Lemma run_from_invoke (c : call) (hist : list call) :
  run_from env hist (invoke c) = (hist ++ [c], Fulfilled (env hist c)).
Proof. reflexivity. Qed.

Lemma run_from_ret (A : Type) (a : A) (hist : list call) :
  run_from env hist (ret a : async resp A) = (hist, Fulfilled a).
Proof. reflexivity. Qed.

Lemma run_from_bind (A B : Type) (m : async resp A) (f : A -> async resp B) (hist : list call) :
  run_from env hist (bind m f) =
  match snd (run_from env hist m) with
  | Fulfilled a => run_from env (fst (run_from env hist m)) (f a)
  | Rejected e => (fst (run_from env hist m), Rejected e)
  | Pending => (fst (run_from env hist m), Pending)
  end.
Proof.
  simpl. unfold async_bind. rewrite run_from_seq.
  destruct (snd (run_from env hist m)); reflexivity.
Qed.

Lemma run_from_try_catch (A : Type) (body : async resp A) (handler : JsError -> async resp A)
      (hist : list call) :
  run_from env hist (try_catch body handler) =
  match snd (run_from env hist body) with
  | Rejected e => run_from env (fst (run_from env hist body)) (handler e)
  | o => (fst (run_from env hist body), o)
  end.
Proof.
  unfold try_catch. rewrite run_from_seq.
  destruct (snd (run_from env hist body)); reflexivity.
Qed.

(** Calls are only ever added at the end of the history. *)
Lemma run_from_extends (R : Type) (p : prog resp R) (hist : list call) :
  exists made, fst (run_from env hist p) = hist ++ made.
Proof.
  revert hist.
  induction p as [r | c k IH]; intros hist; simpl.
  - exists []. now rewrite app_nil_r.
  - destruct (IH (env hist c) (hist ++ [c])) as [made Hmade].
    exists (c :: made). rewrite Hmade, <- app_assoc. reflexivity.
Qed.

End Running.

End AsyncFacts.

Create Rewrite HintDb run.

#[export] Hint Rewrite
  AsyncFacts.run_from_bind AsyncFacts.run_from_try_catch
  AsyncFacts.run_from_await AsyncFacts.run_from_invoke AsyncFacts.run_from_ret : run.

(** ** Properties of the custom-filter service *)

Module CustomFilterServiceFacts.

Import CustomFilterService.

Section Collaborators.

Variables CustomFilterMetadata GetCustomFilterInfoResult InjectionResult : Type.
Variables BACKGROUND_TAB_ID MAIN_FRAME_ID : Z.
Variable SUBSCRIBE_OUTPUT : string.
Variable getTabFrame : Z -> Z -> option Frame.
Variable isHttpOrWsRequest : string -> bool.

Local Abbreviation resp :=
  (CustomFilterService.resp CustomFilterMetadata GetCustomFilterInfoResult InjectionResult).
Local Abbreviation onCustomFilterInfoLoad :=
  (CustomFilterService.onCustomFilterInfoLoad
     CustomFilterMetadata GetCustomFilterInfoResult InjectionResult).
Local Abbreviation onCustomFilterSubscription :=
  (CustomFilterService.onCustomFilterSubscription
     CustomFilterMetadata GetCustomFilterInfoResult InjectionResult).
Local Abbreviation onCustomFilterRemove :=
  (CustomFilterService.onCustomFilterRemove
     CustomFilterMetadata GetCustomFilterInfoResult InjectionResult).
Local Abbreviation injectSubscriptionScript :=
  (CustomFilterService.injectSubscriptionScript
     CustomFilterMetadata GetCustomFilterInfoResult InjectionResult
     BACKGROUND_TAB_ID MAIN_FRAME_ID SUBSCRIBE_OUTPUT getTabFrame isHttpOrWsRequest).

Variable env : oracle resp.

Local Abbreviation creation_of := CustomFilterService.creation_of.
Local Abbreviation injection_of := (CustomFilterService.injection_of SUBSCRIBE_OUTPUT).
Local Abbreviation passes_guards :=
  (CustomFilterService.passes_guards
     BACKGROUND_TAB_ID MAIN_FRAME_ID getTabFrame isHttpOrWsRequest).

Lemma run_onCustomFilterSubscription (message : SubscribeToCustomFilterMessage) :
  run env (onCustomFilterSubscription message) =
  match env [] (createFilter (creation_of message)) with
  | Fulfilled metadata =>
      ([createFilter (creation_of message); debounceUpdate], Fulfilled metadata)
  | Rejected e => ([createFilter (creation_of message)], Rejected e)
  | Pending => ([createFilter (creation_of message)], Pending)
  end.
Proof.
  unfold run, CustomFilterService.onCustomFilterSubscription, CustomFilterService.creation_of.
  autorewrite with run. simpl.
  destruct (env [] _); reflexivity.
Qed.

Lemma run_injectSubscriptionScript (details : OnCommittedDetailsType) :
  run env (injectSubscriptionScript details) =
  if passes_guards details
  then ([injection_of details], 
        match env [] (injection_of details) with
        | Pending => Pending
        | _ => Fulfilled tt
        end)
  else ([], Fulfilled tt).
Proof.
  unfold run, CustomFilterService.injectSubscriptionScript,
    CustomFilterService.passes_guards, CustomFilterService.injection_of.
  destruct (tabId details =? BACKGROUND_TAB_ID); simpl; [reflexivity |].
  destruct (getTabFrame (tabId details) (frameId details)) as [frame |]; [| reflexivity].
  destruct (frameId details =? MAIN_FRAME_ID); simpl; [| reflexivity].
  destruct (isHttpOrWsRequest (frame_url frame)); simpl; [| reflexivity].
  destruct (env [] _); reflexivity.
Qed.

Lemma trace_injectSubscriptionScript (details : OnCommittedDetailsType) :
  trace env (injectSubscriptionScript details) =
  if passes_guards details then [injection_of details] else [].
Proof.
  unfold trace. rewrite run_injectSubscriptionScript.
  destruct (passes_guards details); reflexivity.
Qed.

(** C1.  For a subscribe message with filter [{customUrl, name, trusted}] the
    handler calls the filter-creation operation exactly once, with that
    [customUrl], the name as title, that trust flag and [enabled = true];
    and when the creation resolves with some metadata, the calls made are
    the creation followed by [Engine.debounceUpdate], and the handler
    returns that very metadata. *)
Theorem subscription_creates_enabled_filter_then_refreshes
        (subscription_url filter_name : string) (is_trusted : bool) :
  let message :=
    {| filter := {| customUrl := subscription_url; name := filter_name; trusted := is_trusted |} |} in
  let creation :=
    createFilter {| create_customUrl := subscription_url;
                    create_title := filter_name;
                    create_trusted := is_trusted;
                    create_enabled := true |} in
  List.filter is_createFilter (trace env (onCustomFilterSubscription message)) = [creation] /\
  (forall metadata : CustomFilterMetadata,
      env [] creation = Fulfilled metadata ->
      trace env (onCustomFilterSubscription message) = [creation; debounceUpdate] /\
      outcome env (onCustomFilterSubscription message) = Fulfilled metadata).
Proof.
  intros message creation.
  unfold trace, outcome. rewrite run_onCustomFilterSubscription.
  change (createFilter (creation_of message)) with creation.
  split.
  - destruct (env [] creation); reflexivity.
  - intros metadata Hcreated. rewrite Hcreated. split; reflexivity.
Qed.

(** C2, amended.  For a navigation-commit event outside the background tab,
    for the main frame, whose frame is tracked and whose URL as recorded in
    the registry is HTTP/WS, the handler makes exactly one call, the
    injection of the subscribe script into that tab and frame at
    [document_start]. *)
Theorem main_frame_http_navigation_injects_once
        (details : OnCommittedDetailsType) (frame : Frame) :
  tabId details <> BACKGROUND_TAB_ID ->
  getTabFrame (tabId details) (frameId details) = Some frame ->
  frameId details = MAIN_FRAME_ID ->
  isHttpOrWsRequest (frame_url frame) = true ->
  trace env (injectSubscriptionScript details) =
  [executeScript (tabId details)
     {| file := ("/" ++ SUBSCRIBE_OUTPUT ++ ".js")%string;
        runAt := "document_start";
        inject_frameId := frameId details |}] /\
  calls is_executeScript (trace env (injectSubscriptionScript details)) = 1%nat.
Proof.
  intros Htab Hframe Hmain Hhttp.
  rewrite trace_injectSubscriptionScript.
  unfold CustomFilterService.passes_guards.
  rewrite Hframe, Hhttp.
  apply Z.eqb_neq in Htab. apply Z.eqb_eq in Hmain.
  rewrite Htab, Hmain. split; reflexivity.
Qed.

(** C3.  When the injection call is rejected (or throws), the handler still
    resolves normally, and it has made no second injection call. *)
Theorem injection_failure_is_swallowed (details : OnCommittedDetailsType) (e : JsError) :
  env [] (injection_of details) = Rejected e ->
  outcome env (injectSubscriptionScript details) = Fulfilled tt /\
  (calls is_executeScript (trace env (injectSubscriptionScript details)) <= 1)%nat.
Proof.
  intros Hrejected.
  rewrite trace_injectSubscriptionScript.
  unfold outcome. rewrite run_injectSubscriptionScript, Hrejected.
  destruct (passes_guards details); simpl; split; auto.
Qed.

(** C4, amended.  For a navigation-commit event whose frame is recorded in
    the registry with a URL that is not HTTP/WS, the handler makes no
    injection call. *)
Theorem non_http_frame_is_not_injected (details : OnCommittedDetailsType) (frame : Frame) :
  getTabFrame (tabId details) (frameId details) = Some frame ->
  isHttpOrWsRequest (frame_url frame) = false ->
  calls is_executeScript (trace env (injectSubscriptionScript details)) = 0%nat.
Proof.
  intros Hframe Hother.
  rewrite trace_injectSubscriptionScript.
  unfold CustomFilterService.passes_guards.
  rewrite Hframe, Hother, andb_false_r, andb_false_r. reflexivity.
Qed.

(** C5.  For an event of the background pseudo-tab the handler returns
    without any injection call, whatever the frame and the URL. *)
Theorem background_tab_is_not_injected (details : OnCommittedDetailsType) :
  tabId details = BACKGROUND_TAB_ID ->
  outcome env (injectSubscriptionScript details) = Fulfilled tt /\
  calls is_executeScript (trace env (injectSubscriptionScript details)) = 0%nat.
Proof.
  intros Hbackground. apply Z.eqb_eq in Hbackground.
  rewrite trace_injectSubscriptionScript.
  unfold outcome. rewrite run_injectSubscriptionScript.
  unfold CustomFilterService.passes_guards. rewrite Hbackground.
  split; reflexivity.
Qed.

(** C6.  For an event of a frame other than the main frame the handler
    makes no injection call. *)
Theorem nested_frame_is_not_injected (details : OnCommittedDetailsType) :
  frameId details <> MAIN_FRAME_ID ->
  calls is_executeScript (trace env (injectSubscriptionScript details)) = 0%nat.
Proof.
  intros Hnested. apply Z.eqb_neq in Hnested.
  rewrite trace_injectSubscriptionScript.
  unfold CustomFilterService.passes_guards. rewrite Hnested.
  destruct (getTabFrame _ _); rewrite ?andb_false_r; reflexivity.
Qed.

(** C7.  The info handler makes the single call [getFilterInfo(url, title)]
    and its promise settles exactly as that call's promise does; the removal
    handler makes the single call [removeFilter(filterId)] and its promise
    settles as that call's promise does: with nothing on success, with the
    same error on rejection. *)
Theorem info_and_removal_settle_as_the_api_does (url title : string) (id : Z) :
  run env (onCustomFilterInfoLoad {| info_url := url; info_title := title |}) =
  ([getFilterInfo url title], env [] (getFilterInfo url title)) /\
  run env (onCustomFilterRemove {| filterId := id |}) =
  ([removeFilter id], env [] (removeFilter id)).
Proof.
  split.
  - reflexivity.
  - unfold run, CustomFilterService.onCustomFilterRemove.
    autorewrite with run. simpl.
    destruct (env [] (removeFilter id)) as [[] | e |]; reflexivity.
Qed.

(** C9.  The scheme guard looks at the URL recorded for the frame in the
    registry, not at the URL of the event: a frame recorded with a URL that
    is not HTTP/WS is never injected, whatever URL the event carries; and
    an event outside the background tab for a tracked main frame recorded
    with an HTTP/WS URL is injected, whatever URL the event carries. *)
Theorem guard_reads_the_registered_frame_url :
  (forall (tab frame_id : Z) (event_url : string) (frame : Frame),
      getTabFrame tab frame_id = Some frame ->
      isHttpOrWsRequest (frame_url frame) = false ->
      calls is_executeScript
        (trace env (injectSubscriptionScript
                      {| tabId := tab; frameId := frame_id; url := event_url |})) = 0%nat) /\
  (forall (tab frame_id : Z) (event_url : string) (frame : Frame),
      tab <> BACKGROUND_TAB_ID ->
      getTabFrame tab frame_id = Some frame ->
      frame_id = MAIN_FRAME_ID ->
      isHttpOrWsRequest (frame_url frame) = true ->
      calls is_executeScript
        (trace env (injectSubscriptionScript
                      {| tabId := tab; frameId := frame_id; url := event_url |})) = 1%nat).
Proof.
  split; intros tab frame_id event_url frame.
  - intros Hframe Hother.
    rewrite trace_injectSubscriptionScript.
    unfold CustomFilterService.passes_guards. simpl.
    rewrite Hframe, Hother, andb_false_r, andb_false_r. reflexivity.
  - intros Htab Hframe Hmain Hhttp.
    rewrite trace_injectSubscriptionScript.
    unfold CustomFilterService.passes_guards. simpl.
    apply Z.eqb_neq in Htab. apply Z.eqb_eq in Hmain.
    rewrite Hframe, Hhttp, Htab, Hmain. reflexivity.
Qed.

End Collaborators.

End CustomFilterServiceFacts.

(** ** Properties of the assistant launcher *)

Module PopupFacts.

Import Popup.

Lemma run_onClick (env : oracle resp) :
  run env onClick =
  match env [] active_tab_query with
  | [] => ([active_tab_query], Rejected TypeError)
  | currentTab :: _ =>
      let attach := openAssistant (id currentTab) in
      match env [active_tab_query; announcement currentTab] attach with
      | Fulfilled _ =>
          ([active_tab_query; announcement currentTab; attach; window_close], Fulfilled tt)
      | Rejected e => ([active_tab_query; announcement currentTab; attach], Rejected e)
      | Pending => ([active_tab_query; announcement currentTab; attach], Pending)
      end
  end.
Proof.
  unfold run, onClick, active_tab_query. simpl.
  destruct (env [] _) as [| currentTab others]; simpl.
  - reflexivity.
  - unfold announcement.
    destruct (env [_; _] (openAssistant (id currentTab))) as [[] | e |]; simpl.
    + destruct (env _ window_close). reflexivity.
    + reflexivity.
    + reflexivity.
Qed.

(** C8.  Every click starts with the query for the active tab of the
    current window.  With [currentTab] the first tab reported, the launcher
    then calls [openAssistant] with that tab's identifier, and
    [window.close] follows exactly when the promise of [openAssistant] is
    fulfilled.  The popup is never closed otherwise: if [window.close] was
    called at all, it was called last, right after an [openAssistant] call
    whose promise was fulfilled. *)
Theorem click_opens_assistant_then_closes (env : oracle resp) :
  (exists later, trace env onClick = active_tab_query :: later) /\
  (forall (currentTab : Tab) (others : list Tab),
      env [] active_tab_query = currentTab :: others ->
      trace env onClick =
      [active_tab_query; announcement currentTab; openAssistant (id currentTab)] ++
      match env [active_tab_query; announcement currentTab] (openAssistant (id currentTab)) with
      | Fulfilled _ => [window_close]
      | _ => []
      end) /\
  (In window_close (trace env onClick) ->
   exists currentTab : Tab,
     trace env onClick =
     [active_tab_query; announcement currentTab; openAssistant (id currentTab); window_close] /\
     env [active_tab_query; announcement currentTab] (openAssistant (id currentTab)) =
     Fulfilled tt).
Proof.
  unfold trace. rewrite run_onClick.
  split; [| split].
  - destruct (env [] active_tab_query) as [| currentTab others]; simpl.
    + now exists [].
    + destruct (env _ (openAssistant _)); simpl; eauto.
  - intros currentTab others Htabs. rewrite Htabs. simpl.
    destruct (env _ (openAssistant _)); reflexivity.
  - destruct (env [] active_tab_query) as [| currentTab others]; simpl.
    + intros [Habsurd | []]. discriminate Habsurd.
    + destruct (env _ (openAssistant _)) as [[] | e |] eqn:Hattached; simpl.
      * intros _. exists currentTab. split; [reflexivity | exact Hattached].
      * intros [H | [H | [H | []]]]; discriminate H.
      * intros [H | [H | [H | []]]]; discriminate H.
Qed.

(** C10.  When the query reports no tab, the callback throws a [TypeError]
    before anything else is called: the query is the only call made,
    [openAssistant] and [window.close] are not called, and the rejection is
    what the callback's promise is left with. *)
Theorem click_without_tab_throws (env : oracle resp) :
  env [] active_tab_query = [] ->
  trace env onClick = [active_tab_query] /\
  calls is_openAssistant (trace env onClick) = 0%nat /\
  calls is_window_close (trace env onClick) = 0%nat /\
  outcome env onClick = Rejected TypeError.
Proof.
  intros Hnone. unfold trace, outcome. rewrite run_onClick, Hnone. simpl.
  repeat split.
Qed.

End PopupFacts.

(** ** The handlers at work on concrete collaborators *)

Module CustomFilterServiceExamples.

Import CustomFilterService CustomFilterServiceFacts.

(** The subscription of the list [https://example.com/list.txt] named
    [Test], not trusted. *)
Lemma subscription_creates_enabled_filter_then_refreshes_witness :
  Sample.cooperative []
    (createFilter {| create_customUrl := "https://example.com/list.txt";
                     create_title := "Test";
                     create_trusted := false;
                     create_enabled := true |}) = Fulfilled "custom filter Test" /\
  trace Sample.cooperative
    (onCustomFilterSubscription string string unit
       {| filter := {| customUrl := "https://example.com/list.txt";
                       name := "Test";
                       trusted := false |} |}) =
  [createFilter {| create_customUrl := "https://example.com/list.txt";
                   create_title := "Test";
                   create_trusted := false;
                   create_enabled := true |};
   debounceUpdate].
Proof.
  split.
  - reflexivity.
  - apply (proj2 (@subscription_creates_enabled_filter_then_refreshes
                    string string unit Sample.cooperative
                    "https://example.com/list.txt" "Test" false)
                 "custom filter Test").
    reflexivity.
Defined.

(** The event URL is HTTP but the registry has the frame at [about:blank]:
    nothing is injected. *)
Lemma event_url_does_not_open_the_guard :
  ~ (forall (env : oracle Sample.resp) (details : OnCommittedDetailsType) (frame : Frame),
        tabId details <> Sample.BACKGROUND_TAB_ID ->
        Sample.getTabFrame (tabId details) (frameId details) = Some frame ->
        frameId details = Sample.MAIN_FRAME_ID ->
        Sample.isHttpOrWsRequest (url details) = true ->
        calls is_executeScript (trace env (Sample.inject details)) = 1%nat).
Proof.
  intros Hclaim.
  specialize (Hclaim Sample.cooperative
                {| tabId := 2; frameId := 0; url := "https://example.org/" |}
                {| frame_url := "about:blank" |}).
  vm_compute in Hclaim.
  assert (Hnone : 0%nat = 1%nat).
  { apply Hclaim; [discriminate | reflexivity | reflexivity | reflexivity]. }
  discriminate Hnone.
Qed.

Lemma main_frame_http_navigation_injects_once_witness :
  trace Sample.cooperative
    (Sample.inject {| tabId := 1; frameId := 0; url := "https://example.org/" |}) =
  [executeScript 1 {| file := "/pages/subscribe.js";
                      runAt := "document_start";
                      inject_frameId := 0 |}] /\
  calls is_executeScript
    (trace Sample.cooperative
       (Sample.inject {| tabId := 1; frameId := 0; url := "https://example.org/" |})) = 1%nat.
Proof.
  apply (@main_frame_http_navigation_injects_once
           string string unit Sample.BACKGROUND_TAB_ID Sample.MAIN_FRAME_ID
           Sample.SUBSCRIBE_OUTPUT Sample.getTabFrame Sample.isHttpOrWsRequest
           Sample.cooperative
           {| tabId := 1; frameId := 0; url := "https://example.org/" |}
           {| frame_url := "https://example.org/" |}).
  - discriminate.
  - reflexivity.
  - reflexivity.
  - reflexivity.
Defined.

(** The browser refuses the injection: the handler resolves all the same. *)
Lemma injection_failure_is_swallowed_witness :
  outcome Sample.failing
    (Sample.inject {| tabId := 1; frameId := 0; url := "https://example.org/" |}) =
  Fulfilled tt /\
  (calls is_executeScript
     (trace Sample.failing
        (Sample.inject {| tabId := 1; frameId := 0; url := "https://example.org/" |})) <= 1)%nat.
Proof.
  apply (@injection_failure_is_swallowed
           string string unit Sample.BACKGROUND_TAB_ID Sample.MAIN_FRAME_ID
           Sample.SUBSCRIBE_OUTPUT Sample.getTabFrame Sample.isHttpOrWsRequest
           Sample.failing
           {| tabId := 1; frameId := 0; url := "https://example.org/" |}
           (ExternalError "frame gone")).
  reflexivity.
Defined.

(** The event URL is [about:blank] but the registry has the frame at a web
    page: the script is injected. *)
Lemma event_url_does_not_close_the_guard :
  ~ (forall (env : oracle Sample.resp) (details : OnCommittedDetailsType),
        Sample.isHttpOrWsRequest (url details) = false ->
        calls is_executeScript (trace env (Sample.inject details)) = 0%nat).
Proof.
  intros Hclaim.
  specialize (Hclaim Sample.cooperative
                {| tabId := 1; frameId := 0; url := "about:blank" |}).
  vm_compute in Hclaim.
  assert (Hone : 1%nat = 0%nat).
  { apply Hclaim. reflexivity. }
  discriminate Hone.
Qed.

Lemma non_http_frame_is_not_injected_witness :
  calls is_executeScript
    (trace Sample.cooperative
       (Sample.inject {| tabId := 2; frameId := 0; url := "about:blank" |})) = 0%nat.
Proof.
  apply (@non_http_frame_is_not_injected
           string string unit Sample.BACKGROUND_TAB_ID Sample.MAIN_FRAME_ID
           Sample.SUBSCRIBE_OUTPUT Sample.getTabFrame Sample.isHttpOrWsRequest
           Sample.cooperative
           {| tabId := 2; frameId := 0; url := "about:blank" |}
           {| frame_url := "about:blank" |}).
  - reflexivity.
  - reflexivity.
Defined.

Lemma background_tab_is_not_injected_witness :
  outcome Sample.cooperative
    (Sample.inject {| tabId := -1; frameId := 0; url := "https://example.org/" |}) =
  Fulfilled tt /\
  calls is_executeScript
    (trace Sample.cooperative
       (Sample.inject {| tabId := -1; frameId := 0; url := "https://example.org/" |})) = 0%nat.
Proof.
  apply (@background_tab_is_not_injected
           string string unit Sample.BACKGROUND_TAB_ID Sample.MAIN_FRAME_ID
           Sample.SUBSCRIBE_OUTPUT Sample.getTabFrame Sample.isHttpOrWsRequest
           Sample.cooperative
           {| tabId := -1; frameId := 0; url := "https://example.org/" |}).
  reflexivity.
Defined.

(** Frame 7 of tab 1 is tracked, at a web page, but nested. *)
Lemma nested_frame_is_not_injected_witness :
  calls is_executeScript
    (trace Sample.cooperative
       (Sample.inject {| tabId := 1; frameId := 7; url := "https://ads.example.net/" |})) = 0%nat.
Proof.
  apply (@nested_frame_is_not_injected
           string string unit Sample.BACKGROUND_TAB_ID Sample.MAIN_FRAME_ID
           Sample.SUBSCRIBE_OUTPUT Sample.getTabFrame Sample.isHttpOrWsRequest
           Sample.cooperative
           {| tabId := 1; frameId := 7; url := "https://ads.example.net/" |}).
  discriminate.
Defined.

(** Tab 2 is at [about:blank] in the registry while the event says HTTP;
    tab 1 is at a web page in the registry while the event says
    [about:blank]. *)
Lemma guard_reads_the_registered_frame_url_witness :
  calls is_executeScript
    (trace Sample.cooperative
       (Sample.inject {| tabId := 2; frameId := 0; url := "https://example.org/" |})) = 0%nat /\
  calls is_executeScript
    (trace Sample.cooperative
       (Sample.inject {| tabId := 1; frameId := 0; url := "about:blank" |})) = 1%nat.
Proof.
  pose proof (@guard_reads_the_registered_frame_url
                string string unit Sample.BACKGROUND_TAB_ID Sample.MAIN_FRAME_ID
                Sample.SUBSCRIBE_OUTPUT Sample.getTabFrame Sample.isHttpOrWsRequest
                Sample.cooperative) as [Hclosed Hopen].
  split.
  - apply (Hclosed 2 0 "https://example.org/" {| frame_url := "about:blank" |}).
    + reflexivity.
    + reflexivity.
  - apply (Hopen 1 0 "about:blank" {| frame_url := "https://example.org/" |}).
    + discriminate.
    + reflexivity.
    + reflexivity.
    + reflexivity.
Defined.

End CustomFilterServiceExamples.

Module PopupExamples.

Import Popup PopupFacts.

Lemma click_opens_assistant_then_closes_witness :
  trace Sample.one_tab onClick =
  [tabs_query {| active := true; currentWindow := true |};
   log "Opening Assistant UI for tab id=42 url=https://example.org/";
   openAssistant (Some 42);
   window_close].
Proof.
  apply (proj1 (proj2 (@click_opens_assistant_then_closes Sample.one_tab))
           {| id := Some 42; url := Some "https://example.org/" |} []).
  reflexivity.
Defined.

Lemma click_without_tab_throws_witness :
  trace Sample.no_tab onClick = [tabs_query {| active := true; currentWindow := true |}] /\
  calls is_openAssistant (trace Sample.no_tab onClick) = 0%nat /\
  calls is_window_close (trace Sample.no_tab onClick) = 0%nat /\
  outcome Sample.no_tab onClick = Rejected TypeError.
Proof.
  apply (@click_without_tab_throws Sample.no_tab).
  reflexivity.
Defined.

End PopupExamples.

(** ** Further properties of the custom-filter service *)

Module CustomFilterServiceMore.

Import CustomFilterService CallKinds.

Section Collaborators.

Variables CustomFilterMetadata GetCustomFilterInfoResult InjectionResult : Type.
Variables BACKGROUND_TAB_ID MAIN_FRAME_ID : Z.
Variable SUBSCRIBE_OUTPUT : string.
Variable getTabFrame : Z -> Z -> option Frame.
Variable isHttpOrWsRequest : string -> bool.

Local Abbreviation resp :=
  (CustomFilterService.resp CustomFilterMetadata GetCustomFilterInfoResult InjectionResult).
Local Abbreviation onCustomFilterSubscription :=
  (CustomFilterService.onCustomFilterSubscription
     CustomFilterMetadata GetCustomFilterInfoResult InjectionResult).
Local Abbreviation injectSubscriptionScript :=
  (CustomFilterService.injectSubscriptionScript
     CustomFilterMetadata GetCustomFilterInfoResult InjectionResult
     BACKGROUND_TAB_ID MAIN_FRAME_ID SUBSCRIBE_OUTPUT getTabFrame isHttpOrWsRequest).
Local Abbreviation creation_of := CustomFilterService.creation_of.
Local Abbreviation injection_of := (CustomFilterService.injection_of SUBSCRIBE_OUTPUT).
Local Abbreviation passes_guards :=
  (CustomFilterService.passes_guards
     BACKGROUND_TAB_ID MAIN_FRAME_ID getTabFrame isHttpOrWsRequest).

(** The guards, one by one, against their boolean form. *)
Lemma passes_guards_spec (details : OnCommittedDetailsType) :
  passes_guards details = true <->
  tabId details <> BACKGROUND_TAB_ID /\
  frameId details = MAIN_FRAME_ID /\
  exists frame : Frame,
    getTabFrame (tabId details) (frameId details) = Some frame /\
    isHttpOrWsRequest (frame_url frame) = true.
Proof.
  unfold CustomFilterService.passes_guards.
  rewrite andb_true_iff, negb_true_iff, Z.eqb_neq.
  destruct (getTabFrame (tabId details) (frameId details)) as [frame |].
  - rewrite andb_true_iff, Z.eqb_eq. split.
    + intros (Htab & Hmain & Hhttp). eauto.
    + intros (Htab & Hmain & known & Hknown & Hhttp).
      injection Hknown as <-. auto.
  - split.
    + intros [_ Habsurd]. discriminate Habsurd.
    + intros (_ & _ & known & Habsurd & _). discriminate Habsurd.
Qed.


(** X1.  When the creation of the filter is rejected, the subscription
    handler is rejected with the same error, and the engine is not asked to
    refresh: the creation is the only call made. *)
Theorem failed_creation_skips_the_refresh
        (env : oracle resp) (message : SubscribeToCustomFilterMessage) (e : JsError) :
  env [] (createFilter (creation_of message)) = Rejected e ->
  trace env (onCustomFilterSubscription message) = [createFilter (creation_of message)] /\
  outcome env (onCustomFilterSubscription message) = Rejected e.
Proof.
  intros Hrejected. unfold trace, outcome.
  rewrite CustomFilterServiceFacts.run_onCustomFilterSubscription, Hrejected.
  split; reflexivity.
Qed.

(** X2.  The subscription handler signals the engine at most once, and it
    does so exactly when the creation of the filter was fulfilled. *)
Theorem refresh_exactly_when_created
        (env : oracle resp) (message : SubscribeToCustomFilterMessage) :
  (calls is_debounceUpdate (trace env (onCustomFilterSubscription message)) <= 1)%nat /\
  (calls is_debounceUpdate (trace env (onCustomFilterSubscription message)) = 1%nat <->
   exists metadata : CustomFilterMetadata,
     env [] (createFilter (creation_of message)) = Fulfilled metadata).
Proof.
  unfold trace. rewrite CustomFilterServiceFacts.run_onCustomFilterSubscription.
  destruct (env [] (createFilter (creation_of message))) as [metadata | e |]; simpl.
  - split; [auto | split; eauto].
  - split; [auto | split; [discriminate | intros [metadata Habsurd]; discriminate Habsurd]].
  - split; [auto | split; [discriminate | intros [metadata Habsurd]; discriminate Habsurd]].
Qed.

(** X3.  For an event of a frame that the registry does not track, the
    navigation handler returns at once: no call is made. *)
Theorem untracked_frame_is_not_injected
        (env : oracle resp) (details : OnCommittedDetailsType) :
  getTabFrame (tabId details) (frameId details) = None ->
  run env (injectSubscriptionScript details) = ([], Fulfilled tt).
Proof.
  intros Huntracked.
  rewrite CustomFilterServiceFacts.run_injectSubscriptionScript.
  unfold CustomFilterService.passes_guards.
  rewrite Huntracked, andb_false_r. reflexivity.
Qed.


(** X5.  An injection is made exactly when every guard passes: the tab is
    not the background tab, the frame is the main frame, the registry
    tracks it, and the URL recorded for it is HTTP/WS. *)
Theorem injects_exactly_when_every_guard_passes
        (env : oracle resp) (details : OnCommittedDetailsType) :
  calls is_executeScript (trace env (injectSubscriptionScript details)) = 1%nat <->
  tabId details <> BACKGROUND_TAB_ID /\
  frameId details = MAIN_FRAME_ID /\
  exists frame : Frame,
    getTabFrame (tabId details) (frameId details) = Some frame /\
    isHttpOrWsRequest (frame_url frame) = true.
Proof.
  rewrite <- passes_guards_spec.
  rewrite CustomFilterServiceFacts.trace_injectSubscriptionScript.
  destruct (passes_guards details); simpl; split; auto; discriminate.
Qed.

(** X6.  The navigation handler makes at most one call, and a call it makes
    is the injection of the subscribe script into the tab and frame of the
    event: it never reaches the filter API or the engine. *)
Theorem navigation_handler_only_injects
        (env : oracle resp) (details : OnCommittedDetailsType) :
  (length (trace env (injectSubscriptionScript details)) <= 1)%nat /\
  (forall c : call,
      In c (trace env (injectSubscriptionScript details)) ->
      c = executeScript (tabId details)
            {| file := ("/" ++ SUBSCRIBE_OUTPUT ++ ".js")%string;
               runAt := "document_start";
               inject_frameId := frameId details |}).
Proof.
  rewrite CustomFilterServiceFacts.trace_injectSubscriptionScript.
  destruct (passes_guards details); simpl; split; auto.
  - intros c [<- | []]. reflexivity.
  - intros c [].
Qed.

(** X7.  The URL carried by the event plays no part: two events for the
    same tab and frame are handled alike. *)
Theorem event_url_is_ignored
        (env : oracle resp) (details other : OnCommittedDetailsType) :
  tabId details = tabId other ->
  frameId details = frameId other ->
  run env (injectSubscriptionScript details) = run env (injectSubscriptionScript other).
Proof.
  intros Htab Hframe.
  rewrite !CustomFilterServiceFacts.run_injectSubscriptionScript.
  unfold CustomFilterService.passes_guards, CustomFilterService.injection_of.
  rewrite Htab, Hframe. reflexivity.
Qed.

(** X8.  When every guard passes and the injection never settles, the
    handler has made that one call and stays pending. *)
Theorem pending_injection_keeps_the_handler_pending
        (env : oracle resp) (details : OnCommittedDetailsType) (frame : Frame) :
  tabId details <> BACKGROUND_TAB_ID ->
  getTabFrame (tabId details) (frameId details) = Some frame ->
  frameId details = MAIN_FRAME_ID ->
  isHttpOrWsRequest (frame_url frame) = true ->
  env [] (injection_of details) = Pending ->
  run env (injectSubscriptionScript details) = ([injection_of details], Pending).
Proof.
  intros Htab Hframe Hmain Hhttp Hpending.
  rewrite CustomFilterServiceFacts.run_injectSubscriptionScript.
  replace (passes_guards details) with true.
  - rewrite Hpending. reflexivity.
  - symmetry. apply passes_guards_spec. eauto.
Qed.


End Collaborators.

End CustomFilterServiceMore.

(** ** Properties of [CustomFilterService.init] *)

Module CustomFilterServiceInitFacts.

Import CustomFilterServiceInit.

Local Abbreviation listen_info :=
  (messageHandler_addListener LoadCustomFilterInfo onCustomFilterInfoLoad).
Local Abbreviation listen_subscribe :=
  (messageHandler_addListener SubscribeToCustomFilter onCustomFilterSubscription).
Local Abbreviation listen_remove :=
  (messageHandler_addListener RemoveAntiBannerFilter onCustomFilterRemove).
Local Abbreviation listen_committed :=
  (onCommitted_addListener injectSubscriptionScript).

(** [init] goes through its four statements in order; the first one that
    does not return ends it, with what that statement did. *)
Lemma run_init (env : oracle resp) :
  run env init =
  match env [] listen_info with
  | Fulfilled _ =>
      match env [listen_info] listen_subscribe with
      | Fulfilled _ =>
          match env [listen_info; listen_subscribe] listen_remove with
          | Fulfilled _ =>
              ([listen_info; listen_subscribe; listen_remove; listen_committed],
               env [listen_info; listen_subscribe; listen_remove] listen_committed)
          | stopped => ([listen_info; listen_subscribe; listen_remove], stopped)
          end
      | stopped => ([listen_info; listen_subscribe], stopped)
      end
  | stopped => ([listen_info], stopped)
  end.
Proof.
  unfold run, init, statement. simpl.
  destruct (env [] listen_info) as [[] | e |]; simpl; try reflexivity.
  destruct (env [listen_info] listen_subscribe) as [[] | e |]; simpl; try reflexivity.
  destruct (env [listen_info; listen_subscribe] listen_remove) as [[] | e |];
    simpl; reflexivity.
Qed.

(** X10.  When [init] returns, it has registered, in this order, the
    listeners of the three message types, each with its own handler, and
    then the navigation listener, and nothing else. *)
Theorem init_registers_every_listener (env : oracle resp) :
  outcome env init = Fulfilled tt ->
  trace env init =
  [messageHandler_addListener LoadCustomFilterInfo onCustomFilterInfoLoad;
   messageHandler_addListener SubscribeToCustomFilter onCustomFilterSubscription;
   messageHandler_addListener RemoveAntiBannerFilter onCustomFilterRemove;
   onCommitted_addListener injectSubscriptionScript].
Proof.
  unfold outcome, trace. rewrite run_init.
  destruct (env [] listen_info) as [[] | e |]; simpl; try discriminate.
  destruct (env [listen_info] listen_subscribe) as [[] | e |]; simpl; try discriminate.
  destruct (env [listen_info; listen_subscribe] listen_remove) as [[] | e |];
    simpl; try discriminate.
  reflexivity.
Qed.


(** X12.  The navigation listener is registered last and only once the
    three message listeners are in place: a run of [init] that reaches it
    has registered [LoadCustomFilterInfo], [SubscribeToCustomFilter] and
    [RemoveAntiBannerFilter], each once, and each registration returned. *)
Theorem navigation_listener_comes_after_the_message_listeners
        (env : oracle resp) (listener : Listener) :
  In (onCommitted_addListener listener) (trace env init) ->
  listener = injectSubscriptionScript /\
  registered_types (trace env init) =
  [LoadCustomFilterInfo; SubscribeToCustomFilter; RemoveAntiBannerFilter] /\
  env [] listen_info = Fulfilled tt /\
  env [listen_info] listen_subscribe = Fulfilled tt /\
  env [listen_info; listen_subscribe] listen_remove = Fulfilled tt.
Proof.
  unfold trace. rewrite run_init.
  destruct (env [] listen_info) as [[] | e1 |]; simpl.
  - destruct (env [listen_info] listen_subscribe) as [[] | e2 |]; simpl.
    + destruct (env [listen_info; listen_subscribe] listen_remove) as [[] | e3 |]; simpl.
      * intros [H | [H | [H | [H | []]]]]; try discriminate H.
        injection H as <-. repeat split.
      * intros [H | [H | [H | []]]]; discriminate H.
      * intros [H | [H | [H | []]]]; discriminate H.
    + intros [H | [H | []]]; discriminate H.
    + intros [H | [H | []]]; discriminate H.
  - intros [H | []]; discriminate H.
  - intros [H | []]; discriminate H.
Qed.

End CustomFilterServiceInitFacts.

(** ** Further properties of the popup *)

Module PopupMore.

Import Popup CallKinds.

(** X13.  With a tab reported, the promise of the click callback settles
    exactly as the promise of [openAssistant] does: a failure of the
    assistant is not caught and comes out as the callback's rejection. *)
Theorem click_settles_as_openAssistant_does
        (env : oracle resp) (currentTab : Tab) (others : list Tab) :
  env [] active_tab_query = currentTab :: others ->
  outcome env onClick =
  env [active_tab_query; announcement currentTab] (openAssistant (id currentTab)).
Proof.
  intros Htabs. unfold outcome. rewrite PopupFacts.run_onClick, Htabs. simpl.
  destruct (env _ (openAssistant _)) as [[] | e |]; reflexivity.
Qed.

(** X14.  One click makes one tab query, and it opens the assistant and
    closes the popup at most once each. *)
Theorem click_calls_each_collaborator_at_most_once (env : oracle resp) :
  calls is_tabs_query (trace env onClick) = 1%nat /\
  (calls is_openAssistant (trace env onClick) <= 1)%nat /\
  (calls is_window_close (trace env onClick) <= 1)%nat.
Proof.
  unfold trace. rewrite PopupFacts.run_onClick.
  destruct (env [] active_tab_query) as [| currentTab others]; simpl.
  - auto.
  - destruct (env _ (openAssistant _)); simpl; auto.
Qed.

Section Dom.

Variable Element : Type.

Local Abbreviation resp := (@PopupPage.resp Element).
Local Abbreviation onDOMContentLoaded := (PopupPage.onDOMContentLoaded Element).
Local Abbreviation find_button := (PopupPage.document_getElementById Element "openAssistant").

(** X15.  When the document has no element [openAssistant], the
    [DOMContentLoaded] listener throws a [TypeError] and installs no click
    listener. *)
Theorem missing_button_throws (env : oracle resp) :
  env [] find_button = None ->
  run env onDOMContentLoaded = ([find_button], Rejected TypeError).
Proof.
  intros Hmissing.
  unfold run, PopupPage.onDOMContentLoaded, PopupPage.getElementById. simpl.
  rewrite Hmissing. reflexivity.
Qed.

(** X16.  A click listener is installed exactly when the document has the
    element [openAssistant]; it is then installed once, on that element,
    for the event [click]. *)
Theorem click_listener_goes_on_the_button (env : oracle resp) :
  (calls (@PopupPage.is_element_addEventListener Element)
     (trace env onDOMContentLoaded) = 1%nat <->
   exists button : Element, env [] find_button = Some button) /\
  (forall button : Element,
      env [] find_button = Some button ->
      run env onDOMContentLoaded =
      ([find_button; PopupPage.element_addEventListener button "click"], Fulfilled tt)).
Proof.
  unfold trace, run, PopupPage.onDOMContentLoaded, PopupPage.getElementById,
    PopupPage.addEventListener.
  simpl.
  destruct (env [] find_button) as [button |]; simpl.
  - split.
    + split; eauto.
    + intros known [= <-].
      destruct (env _ (PopupPage.element_addEventListener button "click")).
      reflexivity.
  - split.
    + split; [discriminate | intros [button Habsurd]; discriminate Habsurd].
    + intros button Habsurd. discriminate Habsurd.
Qed.

End Dom.

End PopupMore.

(** ** The further properties at work on concrete collaborators *)

Module MoreExamples.

Import CustomFilterService.

(** The list cannot be fetched: the handler fails and the engine is left
    alone. *)
Lemma failed_creation_skips_the_refresh_witness :
  trace Sample.failing
    (onCustomFilterSubscription string string unit
       {| filter := {| customUrl := "https://example.com/list.txt";
                       name := "Test";
                       trusted := false |} |}) =
  [createFilter {| create_customUrl := "https://example.com/list.txt";
                   create_title := "Test";
                   create_trusted := false;
                   create_enabled := true |}] /\
  outcome Sample.failing
    (onCustomFilterSubscription string string unit
       {| filter := {| customUrl := "https://example.com/list.txt";
                       name := "Test";
                       trusted := false |} |}) =
  Rejected (ExternalError "network").
Proof.
  apply (@CustomFilterServiceMore.failed_creation_skips_the_refresh
           string string unit Sample.failing
           {| filter := {| customUrl := "https://example.com/list.txt";
                           name := "Test";
                           trusted := false |} |}
           (ExternalError "network")).
  reflexivity.
Defined.

(** Tab 5 is unknown to the registry. *)
Lemma untracked_frame_is_not_injected_witness :
  run Sample.cooperative
    (Sample.inject {| tabId := 5; frameId := 0; url := "https://example.org/" |}) =
  ([], Fulfilled tt).
Proof.
  apply (@CustomFilterServiceMore.untracked_frame_is_not_injected
           string string unit Sample.BACKGROUND_TAB_ID Sample.MAIN_FRAME_ID
           Sample.SUBSCRIBE_OUTPUT Sample.getTabFrame Sample.isHttpOrWsRequest
           Sample.cooperative
           {| tabId := 5; frameId := 0; url := "https://example.org/" |}).
  reflexivity.
Defined.

Lemma event_url_is_ignored_witness :
  run Sample.cooperative
    (Sample.inject {| tabId := 1; frameId := 0; url := "https://example.org/" |}) =
  run Sample.cooperative
    (Sample.inject {| tabId := 1; frameId := 0; url := "about:blank" |}).
Proof.
  apply (@CustomFilterServiceMore.event_url_is_ignored
           string string unit Sample.BACKGROUND_TAB_ID Sample.MAIN_FRAME_ID
           Sample.SUBSCRIBE_OUTPUT Sample.getTabFrame Sample.isHttpOrWsRequest
           Sample.cooperative
           {| tabId := 1; frameId := 0; url := "https://example.org/" |}
           {| tabId := 1; frameId := 0; url := "about:blank" |}).
  - reflexivity.
  - reflexivity.
Defined.

Lemma pending_injection_keeps_the_handler_pending_witness :
  run MoreSamples.stalled
    (Sample.inject {| tabId := 1; frameId := 0; url := "https://example.org/" |}) =
  ([executeScript 1 {| file := "/pages/subscribe.js";
                       runAt := "document_start";
                       inject_frameId := 0 |}],
   Pending).
Proof.
  apply (@CustomFilterServiceMore.pending_injection_keeps_the_handler_pending
           string string unit Sample.BACKGROUND_TAB_ID Sample.MAIN_FRAME_ID
           Sample.SUBSCRIBE_OUTPUT Sample.getTabFrame Sample.isHttpOrWsRequest
           MoreSamples.stalled
           {| tabId := 1; frameId := 0; url := "https://example.org/" |}
           {| frame_url := "https://example.org/" |}).
  - discriminate.
  - reflexivity.
  - reflexivity.
  - reflexivity.
  - reflexivity.
Defined.

Lemma init_registers_every_listener_witness :
  trace MoreSamples.accepting CustomFilterServiceInit.init =
  [CustomFilterServiceInit.messageHandler_addListener
     CustomFilterServiceInit.LoadCustomFilterInfo
     CustomFilterServiceInit.onCustomFilterInfoLoad;
   CustomFilterServiceInit.messageHandler_addListener
     CustomFilterServiceInit.SubscribeToCustomFilter
     CustomFilterServiceInit.onCustomFilterSubscription;
   CustomFilterServiceInit.messageHandler_addListener
     CustomFilterServiceInit.RemoveAntiBannerFilter
     CustomFilterServiceInit.onCustomFilterRemove;
   CustomFilterServiceInit.onCommitted_addListener
     CustomFilterServiceInit.injectSubscriptionScript].
Proof.
  apply (@CustomFilterServiceInitFacts.init_registers_every_listener MoreSamples.accepting).
  reflexivity.
Defined.


Lemma navigation_listener_comes_after_the_message_listeners_witness :
  CustomFilterServiceInit.registered_types
    (trace MoreSamples.accepting CustomFilterServiceInit.init) =
  [CustomFilterServiceInit.LoadCustomFilterInfo;
   CustomFilterServiceInit.SubscribeToCustomFilter;
   CustomFilterServiceInit.RemoveAntiBannerFilter].
Proof.
  apply (@CustomFilterServiceInitFacts.navigation_listener_comes_after_the_message_listeners
           MoreSamples.accepting CustomFilterServiceInit.injectSubscriptionScript).
  simpl. right. right. right. left. reflexivity.
Defined.

(** The assistant cannot be opened on a settings page. *)
Lemma click_settles_as_openAssistant_does_witness :
  outcome MoreSamples.assistant_fails Popup.onClick =
  Rejected (ExternalError "cannot access tab").
Proof.
  apply (@PopupMore.click_settles_as_openAssistant_does MoreSamples.assistant_fails
           {| Popup.id := Some 42; Popup.url := Some "chrome://settings/" |} []).
  reflexivity.
Defined.

Lemma missing_button_throws_witness :
  run MoreSamples.without_button (PopupPage.onDOMContentLoaded string) =
  ([PopupPage.document_getElementById string "openAssistant"], Rejected TypeError).
Proof.
  apply (@PopupMore.missing_button_throws string MoreSamples.without_button).
  reflexivity.
Defined.

End MoreExamples.
